(** * Vigilant Sentinel: fraud scoring, severity ladder and response executor

    A shallow embedding of the decision logic of the backend
    ([backend/agents/fraud_detection_agent.py],
    [backend/agents/threat_response_agent.py] and the two request handlers
    of [backend/main.py] that touch the alert store), followed by the
    properties the design document states about it.

    Python [float] is IEEE 754 binary64; it is modelled by Rocq's primitive
    floats, whose operations are the same binary64 operations (round to
    nearest, ties to even).  Text is modelled by [string] (ASCII). *)

From Stdlib Require Import ZArith Floats String Ascii List Bool Lia Permutation.
From Stdlib Require Import DecimalString.
From stdpp Require Import gmap strings.
Import ListNotations.

Set Warnings "-inexact-float".
Local Open Scope string_scope.
Local Open Scope list_scope.
Local Open Scope Z_scope.

(* ===================================================================== *)
(** * Python floats                                                       *)
(* ===================================================================== *)

Module PyFloat.

(** [min(a, b)] on floats: Python returns [b] only when [b < a]. *)
Definition py_min (a b : float) : float :=
  if (b <? a)%float then b else a.

(** Position of a binary64 value on the number line, as a triple compared
    lexicographically; [None] for NaN, which is unordered. *)
Definition rank (x : spec_float) : option (Z * Z * Z) :=
  match x with
  | S754_nan => None
  | S754_infinity true => Some (-2, 0, 0)
  | S754_infinity false => Some (2, 0, 0)
  | S754_zero _ => Some (0, 0, 0)
  | S754_finite false m e => Some (1, e, Z.pos m)
  | S754_finite true m e => Some (-1, - e, Z.neg m)
  end.

Definition lexlt (a b : Z * Z * Z) : Prop :=
  let '(a1, a2, a3) := a in
  let '(b1, b2, b3) := b in
  a1 < b1 \/ (a1 = b1 /\ (a2 < b2 \/ (a2 = b2 /\ a3 < b3))).

Definition lexle (a b : Z * Z * Z) : Prop :=
  let '(a1, a2, a3) := a in
  let '(b1, b2, b3) := b in
  a1 < b1 \/ (a1 = b1 /\ (a2 < b2 \/ (a2 = b2 /\ a3 <= b3))).

(** The comparison of two ranks. *)
Definition lexcmp (a b : Z * Z * Z) : comparison :=
  let '(a1, a2, a3) := a in
  let '(b1, b2, b3) := b in
  match a1 ?= b1 with
  | Eq => match a2 ?= b2 with Eq => a3 ?= b3 | c => c end
  | c => c
  end.

Definition frank (x : float) : option (Z * Z * Z) := rank (Prim2SF x).

(** Order on floats as Python's [<] and [<=] decide it. *)
Definition flt (x y : float) : Prop := (x <? y)%float = true.
Definition fle (x y : float) : Prop := (x <=? y)%float = true.

(** C's [fmod] on binary64: the exact remainder of the truncated
    division, carrying the sign of the dividend. *)
Definition fmod_SF (x y : spec_float) : spec_float :=
  match x, y with
  | S754_nan, _ | _, S754_nan => S754_nan
  | S754_infinity _, _ => S754_nan
  | _, S754_zero _ => S754_nan
  | S754_zero _, _ => x
  | S754_finite _ _ _, S754_infinity _ => x
  | S754_finite sx mx ex, S754_finite _ my ey =>
      let e := Z.min ex ey in
      let X := Z.pos mx * 2 ^ (ex - e) in
      let Y := Z.pos my * 2 ^ (ey - e) in
      let R := X mod Y in
      if (R =? 0)%Z then S754_zero sx
      else binary_normalize prec emax (if sx then - R else R) e false
  end.

Definition fmod (x y : float) : float :=
  SF2Prim (fmod_SF (Prim2SF x) (Prim2SF y)).

(** Python's [x % y] on floats (CPython [float_rem]) for a non-zero
    divisor: [fmod], then the remainder is moved to the sign of the
    divisor.  A zero divisor raises in Python; the only divisor in the
    source is the literal 100. *)
Definition float_rem (x y : float) : float :=
  let m := fmod x y in
  if (m =? 0)%float then (if (y <? 0)%float then (-0)%float else 0%float)
  else if Bool.eqb (y <? 0)%float (m <? 0)%float then m
  else (m + y)%float.

End PyFloat.

(* ===================================================================== *)
(** * Python strings                                                      *)
(* ===================================================================== *)

Module PyStr.

(** [needle in hay] for two strings: substring test. *)
Fixpoint contains (needle hay : string) : bool :=
  String.prefix needle hay ||
  match hay with
  | EmptyString => false
  | String _ rest => contains needle rest
  end.

Definition lower_ascii (c : ascii) : ascii :=
  let n := nat_of_ascii c in
  if (65 <=? n)%nat && (n <=? 90)%nat then ascii_of_nat (n + 32) else c.

(** [s.lower()] on ASCII text. *)
Fixpoint lower (s : string) : string :=
  match s with
  | EmptyString => EmptyString
  | String c rest => String (lower_ascii c) (lower rest)
  end.

(** [s.replace(old, new)] for a one-character [old]: every occurrence is
    replaced. *)
Fixpoint replace (old : ascii) (new s : string) : string :=
  match s with
  | EmptyString => EmptyString
  | String c rest =>
      if Ascii.eqb c old then String.append new (replace old new rest)
      else String c (replace old new rest)
  end.

(** [str(n)] for an integer. *)
Definition str_int (n : Z) : string := NilZero.string_of_int (Z.to_int n).

End PyStr.

(* ===================================================================== *)
(** * backend/agents/fraud_detection_agent.py                             *)
(* ===================================================================== *)

(** [datetime.datetime], as far as the code reads it. *)
Record datetime : Type := mk_datetime {
  year : Z; month : Z; day : Z; hour : Z; minute : Z; second : Z
}.

(** Values stored in the dictionaries the analyzers return. *)
Inductive PyVal : Type :=
| VStr (s : string)
| VFloat (f : float)
| VInt (n : Z).

Module TransactionData.
Record t : Type := mk {
  id : string;
  user_id : string;
  amount : float;
  merchant : string;
  location : string;
  timestamp : string;
  device_id : string;
  ip_address : string;
  card_type : string
}.
End TransactionData.

Module FraudAlert.
Record t : Type := mk {
  transaction_id : string;
  risk_score : float;
  risk_factors : list string;
  severity : string;
  recommended_action : string;
  timestamp : datetime;
  agent_reasoning : string
}.
End FraudAlert.

Module FraudDetection.
Import PyFloat.

(** The dictionary an analyzer returns.  [echo] holds the entries that
    repeat the inputs, in source order; the ["details"] entry, a display
    text nothing reads, and the log lines are left out. *)
Record Analysis : Type := mk_analysis {
  analysis_type : string;
  echo : list (string * PyVal);
  risk_factors : list string;
  risk_score : float
}.

(** The two locals [risk_factors] and [risk_score] of an analyzer. *)
Definition Acc : Type := (list string * float)%type.

Definition start : Acc := ([], 0%float).

(** [risk_factors.append(factor); risk_score += weight] *)
Definition flag (factor : string) (weight : float) (acc : Acc) : Acc :=
  (fst acc ++ [factor], (snd acc + weight)%float).

Definition analyze_transaction_amount (amount : float) (user_id : string)
  : Analysis :=
  let acc := start in
  let acc :=
    if (5000 <? amount)%float then
      flag "High transaction amount (>$5000)" 0.3 acc
    else if (1000 <? amount)%float then
      flag "Elevated transaction amount (>$1000)" 0.1 acc
    else acc in
  let acc :=
    if (float_rem amount 100 =? 0)%float then
      flag "Round amount transaction" 0.05 acc
    else acc in
  {| analysis_type := "amount_analysis";
     echo := [("amount", VFloat amount)];
     risk_factors := fst acc;
     risk_score := py_min (snd acc) 1 |}.

Definition high_risk_locations : list string :=
  ["Unknown"; "Foreign"; "High-risk country"].

Definition analyze_location_pattern (location : string) (user_id : string)
  : Analysis :=
  let acc := start in
  let acc :=
    if existsb (fun risk_loc => PyStr.contains risk_loc location)
         high_risk_locations
    then flag ("High-risk location: " +:+ location) 0.4 acc
    else acc in
  let acc :=
    if PyStr.contains "ATM" location then flag "ATM transaction" 0.1 acc
    else acc in
  {| analysis_type := "location_analysis";
     echo := [("location", VStr location)];
     risk_factors := fst acc;
     risk_score := py_min (snd acc) 1 |}.

Definition analyze_device_pattern (device_id : string) (user_id : string)
  : Analysis :=
  let acc := start in
  let acc :=
    if String.eqb device_id "unknown" || String.eqb device_id "new_device"
    then flag "Unknown or new device" 0.3 acc
    else acc in
  {| analysis_type := "device_analysis";
     echo := [("device_id", VStr device_id)];
     risk_factors := fst acc;
     risk_score := py_min (snd acc) 1 |}.

(** The velocity check takes no input from outside: the count of recent
    transactions is the constant the source assigns. *)
Definition check_velocity_patterns (user_id : string) (current_amount : float)
  : Analysis :=
  let acc := start in
  let recent_transactions := 3 in
  let acc :=
    if recent_transactions >? 5 then
      flag "High transaction velocity (>5 transactions recently)" 0.4 acc
    else if recent_transactions >? 2 then
      flag "Elevated transaction velocity" 0.2 acc
    else acc in
  {| analysis_type := "velocity_analysis";
     echo := [("user_id", VStr user_id);
              ("recent_transaction_count", VInt recent_transactions)];
     risk_factors := fst acc;
     risk_score := py_min (snd acc) 1 |}.

(** The risk aggregation loop: factors are appended and scores added to
    the running total, analysis by analysis. *)
Definition aggregate (analyses : list Analysis) : Acc :=
  fold_left
    (fun acc analysis =>
       (fst acc ++ risk_factors analysis,
        (snd acc + risk_score analysis)%float))
    analyses start.

(** The severity ladder: [(severity, recommended_action)]. *)
Definition classify (final_risk_score : float) : string * string :=
  if (0.7 <=? final_risk_score)%float then
    ("CRITICAL", "BLOCK_TRANSACTION_AND_FREEZE_ACCOUNT")
  else if (0.5 <=? final_risk_score)%float then
    ("HIGH", "REQUIRE_ADDITIONAL_VERIFICATION")
  else if (0.3 <=? final_risk_score)%float then
    ("MEDIUM", "REQUIRE_BASIC_VERIFICATION")
  else
    ("LOW", "MONITOR_ONLY").

Section World.

(** [datetime.fromisoformat]: [None] when it raises. *)
Variable fromisoformat : string -> option datetime.

(** [call_bedrock_directly] applied to the prompt built from the
    transaction, the final score and the factor list.  It returns a
    text, or its fixed error text; it never raises. *)
Variable call_bedrock_directly :
  TransactionData.t -> float -> list string -> string.

(** The reading of [datetime.now()]. *)
Variable now : datetime.

Definition analyze_time_pattern (timestamp : string) (user_id : string)
  : Analysis :=
  let acc := start in
  let acc :=
    match fromisoformat (PyStr.replace "Z"%char "+00:00" timestamp) with
    | Some dt =>
        let hour := hour dt in
        if (hour <? 6) || (hour >? 23) then
          flag ("Unusual transaction time: " +:+ PyStr.str_int hour +:+ ":00")
            0.2 acc
        else acc
    | None => flag "Invalid timestamp format" 0.1 acc
    end in
  {| analysis_type := "time_analysis";
     echo := [("timestamp", VStr timestamp)];
     risk_factors := fst acc;
     risk_score := py_min (snd acc) 1 |}.

(** The five analyses, in the order the pipeline runs them. *)
Definition analyses (transaction_data : TransactionData.t) : list Analysis :=
  let amount_analysis :=
    analyze_transaction_amount (TransactionData.amount transaction_data)
      (TransactionData.user_id transaction_data) in
  let location_analysis :=
    analyze_location_pattern (TransactionData.location transaction_data)
      (TransactionData.user_id transaction_data) in
  let device_analysis :=
    analyze_device_pattern (TransactionData.device_id transaction_data)
      (TransactionData.user_id transaction_data) in
  let time_analysis :=
    analyze_time_pattern (TransactionData.timestamp transaction_data)
      (TransactionData.user_id transaction_data) in
  let velocity_analysis :=
    check_velocity_patterns (TransactionData.user_id transaction_data)
      (TransactionData.amount transaction_data) in
  [amount_analysis; location_analysis; device_analysis; time_analysis;
   velocity_analysis].

(** The body of the [try] block of [process_transaction_alert]. *)
Definition process_transaction_alert_try
  (transaction_data : TransactionData.t) : FraudAlert.t :=
  let '(all_risk_factors, total_risk_score) :=
    aggregate (analyses transaction_data) in
  let final_risk_score := py_min total_risk_score 1 in
  let ai_reasoning :=
    call_bedrock_directly transaction_data final_risk_score
      all_risk_factors in
  let '(severity, recommended_action) := classify final_risk_score in
  FraudAlert.mk (TransactionData.id transaction_data) final_risk_score
    all_risk_factors severity recommended_action now ai_reasoning.

Definition _fallback_fraud_alert (transaction_data : TransactionData.t)
  (start_time : datetime) : FraudAlert.t :=
  let acc := start in
  let acc :=
    if (1000 <? TransactionData.amount transaction_data)%float then
      flag "High amount transaction (fallback)" 0.3 acc
    else acc in
  let acc :=
    if PyStr.contains "unknown"
         (PyStr.lower (TransactionData.location transaction_data))
    then flag "Unknown location (fallback)" 0.2 acc
    else acc in
  let '(risk_factors, risk_score) := acc in
  let severity := if (0.3 <? risk_score)%float then "MEDIUM" else "LOW" in
  let recommended_action :=
    if (0.3 <? risk_score)%float then "REQUIRE_BASIC_VERIFICATION"
    else "MONITOR_ONLY" in
  FraudAlert.mk (TransactionData.id transaction_data)
    (py_min risk_score 1) risk_factors severity recommended_action now
    "Fallback analysis used due to agent error".

(** [process_transaction_alert].  [raised] tells whether an exception
    interrupts the [try] block ([Some] of its message); the handler
    then answers with the fallback alert. *)
Definition process_transaction_alert (raised : option string)
  (transaction_data : TransactionData.t) : FraudAlert.t :=
  match raised with
  | None => process_transaction_alert_try transaction_data
  | Some _ => _fallback_fraud_alert transaction_data now
  end.

End World.

End FraudDetection.

(* ===================================================================== *)
(** * backend/agents/threat_response_agent.py                             *)
(* ===================================================================== *)

(** The alert dictionary handed to the responder.  Every key the responder
    reads with [.get(key, default)] may be absent. *)
Module AlertData.
Record t : Type := mk {
  transaction_id : option string;
  user_id : option string;
  risk_score : option float;
  risk_factors : option (list string);
  severity : option string;
  recommended_action : option string;
  timestamp : option string
}.
End AlertData.

Module ThreatResponse.
Record t : Type := mk {
  alert_id : string;
  actions_taken : list string;
  status : string;
  timestamp : datetime;
  response_time_ms : Z;
  agent_reasoning : string
}.
End ThreatResponse.

Module ThreatResponseAgent.

(** One call of a response function, with its arguments. *)
Inductive Call : Type :=
| block_transaction (transaction_id reason : string)
| freeze_account (user_id : string) (duration_hours : Z) (reason : string)
| send_fraud_alert (user_id alert_type message : string)
| require_verification (user_id verification_type reason : string)
| log_security_event (event_type severity : string) (details : AlertData.t).

(** The calls made so far and the local [actions_taken]. *)
Definition Log : Type := (list Call * list string)%type.

(** A call that is followed by [actions_taken.append(description)]. *)
Definition perform (call : Call) (description : string) (log : Log) : Log :=
  (fst log ++ [call], snd log ++ [description]).

(** [d.get(key, default)] *)
Definition get {A : Type} (field : option A) (default : A) : A :=
  match field with Some v => v | None => default end.

Section World.

(** [str(x)] of a float, as the messages interpolate it. *)
Variable float_str : float -> string.

(** [call_bedrock_directly] applied to the prompt built from the alert
    identifier and the alert; it never raises. *)
Variable call_bedrock_directly : string -> AlertData.t -> string.

(** The reading of [datetime.now()] at the end, and the elapsed
    milliseconds computed from it. *)
Variable now : datetime.
Variable elapsed_ms : Z.

(** The body of the [try] block of [execute_threat_response]: the
    answer and the calls made, in order. *)
Definition execute_threat_response_try (alert_id : string)
  (fraud_alert : AlertData.t) : ThreatResponse.t * list Call :=
  let risk_score := get (AlertData.risk_score fraud_alert) 0%float in
  let transaction_id := get (AlertData.transaction_id fraud_alert) "unknown" in
  let user_id := get (AlertData.user_id fraud_alert) "unknown" in
  let ai_response := call_bedrock_directly alert_id fraud_alert in
  let log : Log := ([], []) in
  let log :=
    if (0.7 <=? risk_score)%float then
      let log :=
        perform
          (block_transaction transaction_id
             ("Critical fraud risk: " +:+ float_str risk_score))
          ("Blocked transaction " +:+ transaction_id) log in
      let log :=
        perform
          (freeze_account user_id 24
             ("Critical fraud alert: " +:+ alert_id))
          ("Froze account " +:+ user_id +:+ " for 24 hours") log in
      let log :=
        perform
          (send_fraud_alert user_id "SMS"
             "URGENT: Suspicious activity detected. Account temporarily secured.")
          ("Sent urgent fraud alert to " +:+ user_id) log in
      perform (log_security_event "CRITICAL_FRAUD" "HIGH" fraud_alert)
        "Logged critical security event" log
    else if (0.5 <=? risk_score)%float then
      let log :=
        perform
          (require_verification user_id "2FA"
             ("High fraud risk: " +:+ float_str risk_score))
          ("Required 2FA verification for " +:+ user_id) log in
      let log :=
        perform
          (send_fraud_alert user_id "EMAIL"
             "Security verification required for recent transaction.")
          ("Sent security alert to " +:+ user_id) log in
      perform (log_security_event "HIGH_FRAUD" "MEDIUM" fraud_alert)
        "Logged high-risk security event" log
    else if (0.3 <=? risk_score)%float then
      let log :=
        perform
          (require_verification user_id "SMS_CODE"
             ("Medium fraud risk: " +:+ float_str risk_score))
          ("Required SMS verification for " +:+ user_id) log in
      perform (log_security_event "MEDIUM_FRAUD" "LOW" fraud_alert)
        "Logged medium-risk security event" log
    else
      perform (log_security_event "LOW_FRAUD" "INFO" fraud_alert)
        "Logged low-risk security event" log in
  (ThreatResponse.mk alert_id (snd log) "completed" now elapsed_ms
     ai_response,
   fst log).

Definition _fallback_response (alert_id : string)
  (fraud_alert : AlertData.t) (start_time : datetime)
  : ThreatResponse.t * list Call :=
  let actions_taken := ["Logged security event (fallback mode)"] in
  (ThreatResponse.mk alert_id actions_taken "fallback_completed" now
     elapsed_ms "Fallback response used due to agent error",
   [log_security_event "FALLBACK_RESPONSE" "INFO" fraud_alert]).

(** [execute_threat_response].  [raised] tells whether an exception
    interrupts the [try] block; the calls listed are then those of the
    fallback. *)
Definition execute_threat_response (raised : option string)
  (alert_id : string) (fraud_alert : AlertData.t)
  : ThreatResponse.t * list Call :=
  match raised with
  | None => execute_threat_response_try alert_id fraud_alert
  | Some _ => _fallback_response alert_id fraud_alert now
  end.

End World.

End ThreatResponseAgent.

(* ===================================================================== *)
(** * backend/main.py: application state and the two alert handlers       *)
(* ===================================================================== *)

Module Backend.

(** The exceptions the two handlers meet. *)
Inductive PyExn : Type :=
| NameError (name : string)
| HTTPException (status_code : Z) (detail : string).

(** Objects a name of a handler can be bound to. *)
Inductive PyObj : Type :=
| OTransaction (transaction : TransactionData.t)
| OAlert (alert : FraudAlert.t)
| OModuleLevel (name : string)
| OOther.

Record AgentMetrics : Type := mk_metrics {
  processed : Z;
  errors : Z;
  last_activity : option string
}.

(** [ApplicationState]: the alert store, the per-agent metrics, the
    observer set and the two queues. *)
Record ApplicationState : Type := mk_state {
  active_alerts : gmap string FraudAlert.t;
  fraud_detection : AgentMetrics;
  threat_response : AgentMetrics;
  case_manager : AgentMetrics;
  websocket_connections : gset nat;
  transaction_queue : list PyObj;
  alert_queue : list AlertData.t
}.

(** [ApplicationState.__init__] *)
Definition app_state : ApplicationState :=
  {| active_alerts := ∅;
     fraud_detection := mk_metrics 0 0 None;
     threat_response := mk_metrics 0 0 None;
     case_manager := mk_metrics 0 0 None;
     websocket_connections := ∅;
     transaction_queue := [];
     alert_queue := [] |}.

(** What a handler leaves behind: a value or a raised exception.  The
    state is kept in both cases, since nothing undoes the writes made
    before an exception. *)
Inductive Outcome (A : Type) : Type :=
| Returns (a : A)
| Raises (e : PyExn).
Arguments Returns {A} a.
Arguments Raises {A} e.

Definition Handler (A : Type) : Type :=
  ApplicationState -> Outcome A * ApplicationState.

Definition ret {A : Type} (a : A) : Handler A := fun st => (Returns a, st).

Definition raise {A : Type} (e : PyExn) : Handler A := fun st => (Raises e, st).

Definition bind {A B : Type} (m : Handler A) (k : A -> Handler B) : Handler B :=
  fun st =>
    match m st with
    | (Returns a, st') => k a st'
    | (Raises e, st') => (Raises e, st')
    end.

(** [try: body  except Exception as e: handler(e)] *)
Definition try_except {A : Type} (body : Handler A) (handler : PyExn -> Handler A)
  : Handler A :=
  fun st =>
    match body st with
    | (Returns a, st') => (Returns a, st')
    | (Raises e, st') => handler e st'
    end.

Definition get_state : Handler ApplicationState := fun st => (Returns st, st).

Definition modify (f : ApplicationState -> ApplicationState) : Handler unit :=
  fun st => (Returns tt, f st).

Declare Scope handler_scope.
Delimit Scope handler_scope with handler.
Notation "x <- m ;; k" := (bind m (fun x => k))
  (at level 100, m at next level, right associativity) : handler_scope.
Notation "m ;; k" := (bind m (fun _ => k))
  (at level 100, right associativity) : handler_scope.

(** Names bound at module level in [main.py] (imports, classes, the state
    object, the tasks and the route functions). *)
Definition module_globals : list string :=
  ["json"; "logging"; "asyncio"; "os"; "datetime"; "timedelta"; "Dict";
   "List"; "Any"; "Optional"; "FastAPI"; "HTTPException"; "WebSocket";
   "WebSocketDisconnect"; "BackgroundTasks"; "CORSMiddleware";
   "TrustedHostMiddleware"; "GZipMiddleware"; "BaseModel"; "uvicorn";
   "boto3"; "asynccontextmanager"; "settings"; "LOGGING_CONFIG";
   "fraud_detection_agent"; "process_transaction_alert";
   "threat_response_agent"; "execute_threat_response";
   "case_manager_agent"; "assist_case_investigation"; "logger";
   "TransactionData"; "FraudAlert"; "ThreatResponse"; "CaseInvestigation";
   "AgentStatus"; "ApplicationState"; "app_state";
   "process_transaction_queue"; "process_alert_queue"; "broadcast_alert";
   "broadcast_response"; "lifespan"; "app"; "health_check"; "root";
   "get_system_status"; "analyze_transaction"; "get_active_alerts";
   "respond_to_alert"; "investigate_case"; "get_dashboard_analytics";
   "websocket_endpoint"; "generate_test_transaction"].

Fixpoint assoc (name : string) (scope : list (string * PyObj)) : option PyObj :=
  match scope with
  | [] => None
  | (n, v) :: rest => if String.eqb n name then Some v else assoc name rest
  end.

(** Reading a name inside a function: its locals, then the module; a name
    bound in neither (and no builtin) raises [NameError]. *)
Definition load_name (locals : list (string * PyObj)) (name : string)
  : Handler PyObj :=
  match assoc name locals with
  | Some v => ret v
  | None =>
      if existsb (String.eqb name) module_globals then ret (OModuleLevel name)
      else raise (NameError name)
  end.

(** What a broadcast carries as ["data"]. *)
Inductive Payload : Type :=
| PAlertDict (alert_data : AlertData.t)
| PResponse (response : ThreatResponse.t)
| PResponseDict (alert_id : string) (response_result : ThreatResponse.t)
    (timestamp : string).

(** [json.dumps] encodes dictionaries of texts, numbers and lists; a model
    object inside the message makes it raise. *)
Definition json_serializable (data : Payload) : bool :=
  match data with
  | PAlertDict _ => true
  | PResponse _ => false
  | PResponseDict _ _ _ => false
  end.

(** The body returned by [analyze_transaction]. *)
Record Accepted : Type := mk_accepted {
  status : string;
  transaction_id : string;
  message : string;
  alert_generated : bool;
  risk_score : float;
  timestamp : string
}.

(** The body returned by [respond_to_alert]. *)
Record Responded : Type := mk_responded {
  r_status : string;
  r_alert_id : string;
  r_message : string;
  response_details : ThreatResponse.t;
  r_timestamp : string
}.

Definition set_fraud_detection (m : AgentMetrics) (st : ApplicationState)
  : ApplicationState :=
  mk_state (active_alerts st) m (threat_response st) (case_manager st)
    (websocket_connections st) (transaction_queue st) (alert_queue st).

Definition set_threat_response (m : AgentMetrics) (st : ApplicationState)
  : ApplicationState :=
  mk_state (active_alerts st) (fraud_detection st) m (case_manager st)
    (websocket_connections st) (transaction_queue st) (alert_queue st).

Definition set_active_alerts (alerts : gmap string FraudAlert.t)
  (st : ApplicationState) : ApplicationState :=
  mk_state alerts (fraud_detection st) (threat_response st) (case_manager st)
    (websocket_connections st) (transaction_queue st) (alert_queue st).

Definition set_websocket_connections (conns : gset nat)
  (st : ApplicationState) : ApplicationState :=
  mk_state (active_alerts st) (fraud_detection st) (threat_response st)
    (case_manager st) conns (transaction_queue st) (alert_queue st).

Definition set_transaction_queue (queue : list PyObj) (st : ApplicationState)
  : ApplicationState :=
  mk_state (active_alerts st) (fraud_detection st) (threat_response st)
    (case_manager st) (websocket_connections st) queue (alert_queue st).

(** [metrics["processed"] += 1; metrics["last_activity"] = now] *)
Definition count_processed (now_iso : string) (m : AgentMetrics) : AgentMetrics :=
  mk_metrics (processed m + 1) (errors m) (Some now_iso).

(** [metrics["errors"] += 1] *)
Definition count_error (m : AgentMetrics) : AgentMetrics :=
  mk_metrics (processed m) (errors m + 1) (last_activity m).

Section World.

(** The collaborators of the fraud detection agent. *)
Variable fromisoformat : string -> option datetime.
Variable fraud_bedrock : TransactionData.t -> float -> list string -> string.
Variable fraud_raised : option string.

(** The collaborators of the threat response agent. *)
Variable float_str : float -> string.
Variable response_bedrock : string -> AlertData.t -> string.
Variable response_raised : option string.
Variable elapsed_ms : Z.

(** The clock, [datetime.isoformat] and [str] of a framework exception. *)
Variable now : datetime.
Variable isoformat : datetime -> string.
Variable http_exception_str : Z -> string -> string.

(** Whether [send_text] to an observer succeeds. *)
Variable delivers : nat -> bool.

(** [str(e)] *)
Definition exn_str (e : PyExn) : string :=
  match e with
  | NameError name => "name '" +:+ name +:+ "' is not defined"
  | HTTPException status_code detail => http_exception_str status_code detail
  end.

(** [broadcast_alert] and [broadcast_response]: each observer whose
    delivery fails, the encoding of the message included, is dropped. *)
Definition broadcast (data : Payload) : Handler unit :=
  fun st =>
    let connections := websocket_connections st in
    if decide (connections = ∅) then (Returns tt, st)
    else
      let disconnected :=
        filter (fun websocket =>
                  json_serializable data && delivers websocket = false)
          connections in
      (Returns tt, set_websocket_connections (connections ∖ disconnected) st).

Definition analyze_transaction (transaction : TransactionData.t)
  : Handler Accepted :=
  try_except
    (let alert :=
       FraudDetection.process_transaction_alert fromisoformat fraud_bedrock
         now fraud_raised transaction in
     modify (fun st =>
               set_fraud_detection
                 (count_processed (isoformat now) (fraud_detection st)) st) ;;
     modify (fun st =>
               set_active_alerts
                 (<[FraudAlert.transaction_id alert := alert]> (active_alerts st))
                 st) ;;
     transaction_data <-
       load_name [("transaction", OTransaction transaction);
                  ("background_tasks", OOther);
                  ("alert", OAlert alert)] "transaction_data" ;;
     modify (fun st =>
               set_transaction_queue (transaction_queue st ++ [transaction_data])
                 st) ;;
     ret {| status := "accepted";
            transaction_id := TransactionData.id transaction;
            message := "Transaction submitted for fraud analysis";
            alert_generated := true;
            risk_score := FraudAlert.risk_score alert;
            timestamp := isoformat now |})%handler
    (fun e => raise (HTTPException 500 (exn_str e))).

Definition respond_to_alert (alert_id : string) : Handler Responded :=
  try_except
    (st <- get_state ;;
     match active_alerts st !! alert_id with
     | None => raise (HTTPException 404 "Alert not found")
     | Some alert =>
         let alert_data :=
           AlertData.mk (Some (FraudAlert.transaction_id alert)) None
             (Some (FraudAlert.risk_score alert))
             (Some (FraudAlert.risk_factors alert))
             (Some (FraudAlert.severity alert))
             (Some (FraudAlert.recommended_action alert))
             (Some (isoformat (FraudAlert.timestamp alert))) in
         let response_result :=
           fst (ThreatResponseAgent.execute_threat_response float_str
                  response_bedrock now elapsed_ms response_raised alert_id
                  alert_data) in
         modify (fun st =>
                   set_threat_response
                     (count_processed (isoformat now) (threat_response st)) st) ;;
         broadcast (PResponseDict alert_id response_result (isoformat now)) ;;
         ret {| r_status := "success";
                r_alert_id := alert_id;
                r_message := "Automated threat response executed";
                response_details := response_result;
                r_timestamp := isoformat now |}
     end)%handler
    (fun e =>
       (modify (fun st =>
                  set_threat_response (count_error (threat_response st)) st) ;;
        raise (HTTPException 500 (exn_str e)))%handler).

End World.

End Backend.

(* ===================================================================== *)
(** * A parser for fixed-width timestamps                                 *)
(* ===================================================================== *)

(** [datetime.fromisoformat] belongs to Python's library; the analyzers
    take it as a parameter.  This module gives one parser to run them
    with: it reads [YYYY-MM-DDTHH:MM:SS], optionally followed by an offset
    [+HH:MM] or [-HH:MM], and refuses everything else. *)
Module IsoFormat.

Definition digit (c : ascii) : option Z :=
  let n := nat_of_ascii c in
  if (48 <=? n)%nat && (n <=? 57)%nat then Some (Z.of_nat (n - 48)) else None.

Fixpoint number (s : string) (acc : Z) : option Z :=
  match s with
  | EmptyString => Some acc
  | String c rest =>
      match digit c with
      | Some d => number rest (10 * acc + d)
      | None => None
      end
  end.

(** The number written in the [len] characters from position [start]. *)
Definition field (s : string) (start len : nat) : option Z :=
  let part := String.substring start len s in
  if (String.length part =? len)%nat then number part 0 else None.

Definition char_at (s : string) (i : nat) (c : ascii) : bool :=
  match String.get i s with
  | Some c' => Ascii.eqb c' c
  | None => false
  end.

Definition offset_ok (s : string) : bool :=
  (char_at s 19 "+" || char_at s 19 "-") && char_at s 22 ":" &&
  match field s 20 2, field s 23 2 with
  | Some h, Some m => (h <? 24) && (m <? 60)
  | _, _ => false
  end.

Definition fromisoformat (s : string) : option datetime :=
  let n := String.length s in
  if ((n =? 19)%nat || ((n =? 25)%nat && offset_ok s)) &&
     char_at s 4 "-" && char_at s 7 "-" &&
     (char_at s 10 "T" || char_at s 10 " ") &&
     char_at s 13 ":" && char_at s 16 ":"
  then
    match field s 0 4, field s 5 2, field s 8 2,
          field s 11 2, field s 14 2, field s 17 2 with
    | Some y, Some mo, Some d, Some h, Some mi, Some se =>
        if (1 <=? y) && (1 <=? mo) && (mo <=? 12) && (1 <=? d) && (d <=? 31) &&
           (h <? 24) && (mi <? 60) && (se <? 60)
        then Some (mk_datetime y mo d h mi se)
        else None
    | _, _, _, _, _, _ => None
    end
  else None.

End IsoFormat.

(* ===================================================================== *)
(** * Sample inputs and stand-ins for the collaborators                   *)
(* ===================================================================== *)

Module Samples.

(** A transaction whose score depends on the order of the summands: a
    round amount of 100 at an unknown location. *)
Definition round_unknown : TransactionData.t :=
  {| TransactionData.id := "txn_100001";
     TransactionData.user_id := "user_1001";
     TransactionData.amount := 100;
     TransactionData.merchant := "Amazon";
     TransactionData.location := "Unknown";
     TransactionData.timestamp := "2024-01-15T14:00:00";
     TransactionData.device_id := "device_123";
     TransactionData.ip_address := "192.168.1.10";
     TransactionData.card_type := "credit" |}.

(** Stand-ins for the collaborators, to run the pipeline on examples: the
    text service answers with its error text, and the clock is stopped. *)
Definition bedrock_down (transaction_data : TransactionData.t)
  (final_risk_score : float) (all_risk_factors : list string) : string :=
  "Error calling Bedrock model".

Definition response_bedrock_down (alert_id : string)
  (fraud_alert : AlertData.t) : string :=
  "Error calling Bedrock model".

Definition clock : datetime := mk_datetime 2024 1 15 14 0 1.

Definition plain_float_str (x : float) : string := "<float>".

(** The transaction of the second end-to-end scenario. *)
Definition scenario_2 : TransactionData.t :=
  {| TransactionData.id := "txn_200002";
     TransactionData.user_id := "user_2002";
     TransactionData.amount := 50;
     TransactionData.merchant := "Starbucks";
     TransactionData.location := "New York, NY";
     TransactionData.timestamp := "2024-01-15T14:00:00";
     TransactionData.device_id := "device_123";
     TransactionData.ip_address := "192.168.1.20";
     TransactionData.card_type := "debit" |}.

(** A small purchase at an unknown location. *)
Definition unknown_location_only : TransactionData.t :=
  {| TransactionData.id := "txn_300003";
     TransactionData.user_id := "user_3003";
     TransactionData.amount := 50;
     TransactionData.merchant := "Shell";
     TransactionData.location := "Unknown";
     TransactionData.timestamp := "2024-01-15T14:00:00";
     TransactionData.device_id := "device_456";
     TransactionData.ip_address := "192.168.1.30";
     TransactionData.card_type := "credit" |}.

(** A large purchase at a known location. *)
Definition high_amount_only : TransactionData.t :=
  {| TransactionData.id := "txn_400004";
     TransactionData.user_id := "user_4004";
     TransactionData.amount := 2000;
     TransactionData.merchant := "Amazon";
     TransactionData.location := "London, UK";
     TransactionData.timestamp := "2024-01-15T14:00:00";
     TransactionData.device_id := "device_456";
     TransactionData.ip_address := "192.168.1.40";
     TransactionData.card_type := "credit" |}.

(** [datetime.isoformat] of the stopped clock, and [str] of a framework
    exception, which prints the status and the detail. *)
Definition clock_text (t : datetime) : string := "2024-01-15T14:00:01".

Definition status_and_detail (status_code : Z) (detail : string) : string :=
  PyStr.str_int status_code +:+ ": " +:+ detail.

Definition always_delivers (websocket : nat) : bool := true.

End Samples.

(* ===================================================================== *)
(** * The design document's side of the properties                        *)
(* ===================================================================== *)

(** The tables and rules of the design document, and the finite checks the
    proofs below run, stated over the embedding above. *)
Module Design.
Import PyFloat FraudDetection ThreatResponseAgent.

Definition CRITICAL : string * string :=
  ("CRITICAL", "BLOCK_TRANSACTION_AND_FREEZE_ACCOUNT").
Definition HIGH : string * string :=
  ("HIGH", "REQUIRE_ADDITIONAL_VERIFICATION").
Definition MEDIUM : string * string :=
  ("MEDIUM", "REQUIRE_BASIC_VERIFICATION").
Definition LOW : string * string :=
  ("LOW", "MONITOR_ONLY").

(** The four score ranges of the ladder, as the design document tabulates
    them. *)
Definition critical_range (s : float) : Prop := fle 0.7 s.
Definition high_range (s : float) : Prop := fle 0.5 s /\ flt s 0.7.
Definition medium_range (s : float) : Prop := fle 0.3 s /\ flt s 0.5.
Definition low_range (s : float) : Prop := flt s 0.3.

(** The tier part of the amount rule: 0.3 above 5000, else 0.1 above 1000. *)
Definition amount_base (a : float) : float :=
  if (5000 <? a)%float then 0.3%float
  else if (1000 <? a)%float then 0.1%float else 0%float.

(** The round-amount part: 0.05 when [a % 100 == 0]. *)
Definition amount_bonus (a : float) : float :=
  if (float_rem a 100 =? 0)%float then 0.05%float else 0%float.

(** The band of an amount between the breakpoints 0, 1000 and 5000. *)
Definition amount_band (a : float) : Z :=
  if (5000 <? a)%float then 2 else if (1000 <? a)%float then 1 else 0.

Definition amount_score (a : float) : float :=
  risk_score (analyze_transaction_amount a "").

(** The amount 12.5 * n, exactly, and the test that [% 100 == 0] holds for
    it when and only when it is a multiple of 100, that is for n = 8 k. *)
Definition step_amount (n : Z) : float :=
  SF2Prim (binary_normalize prec emax (25 * n) (-1) false).

Definition round_test (n : Z) : bool :=
  Bool.eqb (float_rem (step_amount n) 100 =? 0)%float (n mod 8 =? 0).

(** What the time analyzer hands to the parser. *)
Definition parsed (fromisoformat : string -> option datetime)
  (timestamp : string) : option datetime :=
  fromisoformat (PyStr.replace "Z"%char "+00:00" timestamp).

(** The score the pipeline keeps: the contributions added one after the
    other to a total that starts at 0.0, then [min(total, 1.0)]. *)
Definition clamped_sum (scores : list float) : float :=
  py_min (fold_left (fun total score => (total + score)%float) scores 0%float) 1.

(** The values each analyzer can contribute. *)
Definition amount_values : list float :=
  [0%float; 0.05%float; 0.1%float; (0.1 + 0.05)%float; 0.3%float;
   0.35%float].
Definition location_values : list float :=
  [0%float; 0.4%float; 0.1%float; (0.4 + 0.1)%float].
Definition device_values : list float := [0%float; 0.3%float].
Definition time_values : list float := [0%float; 0.2%float; 0.1%float].
Definition velocity_values : list float := [0.2%float].

(** Every list of five contributions a transaction can produce. *)
Definition candidates : list (list float) :=
  flat_map (fun a =>
  flat_map (fun l =>
  flat_map (fun d =>
  flat_map (fun t =>
  map (fun v => [a; l; d; t; v]) velocity_values)
    time_values) device_values) location_values) amount_values.

Definition tier_eqb (x y : string * string) : bool :=
  String.eqb (fst x) (fst y) && String.eqb (snd x) (snd y).

(** One unit in the last place of a score just below 1. *)
Definition ulp : float := 0x1p-52%float.

(** What reordering the summands of [scores] can do to the result. *)
Definition reorder_check (scores : list float) : bool :=
  forallb
    (fun scores' =>
       tier_eqb (classify (clamped_sum scores')) (classify (clamped_sum scores))
       && (abs (clamped_sum scores' - clamped_sum scores) <=? ulp)%float)
    (permutations scores).

Definition range_check (scores : list float) : bool :=
  (0 <=? clamped_sum scores)%float && (clamped_sum scores <=? 1)%float.

(** The five contributions of a transaction, in the order the pipeline
    runs the analyzers. *)
Definition contributions (fromisoformat : string -> option datetime)
  (transaction_data : TransactionData.t) : list float :=
  map risk_score (analyses fromisoformat transaction_data).

(** What a call does, without the identifiers and texts it is given. *)
Inductive ActionKind : Type :=
| KBlock
| KFreeze (duration_hours : Z)
| KAlert (alert_type : string)
| KVerify (verification_type : string)
| KLog (event_type severity : string).

Definition call_kind (call : Call) : ActionKind :=
  match call with
  | block_transaction _ _ => KBlock
  | freeze_account _ duration_hours _ => KFreeze duration_hours
  | send_fraud_alert _ alert_type _ => KAlert alert_type
  | require_verification _ verification_type _ => KVerify verification_type
  | log_security_event event_type severity _ => KLog event_type severity
  end.

(** The actions of each tier, as the design document lists them: block,
    freeze for 24 hours, urgent alert and log for CRITICAL; two-factor
    verification, alert and log for HIGH; code verification and log for
    MEDIUM; log only for LOW. *)
Definition tier_kinds (severity : string) : list ActionKind :=
  if String.eqb severity "CRITICAL" then
    [KBlock; KFreeze 24; KAlert "SMS"; KLog "CRITICAL_FRAUD" "HIGH"]
  else if String.eqb severity "HIGH" then
    [KVerify "2FA"; KAlert "EMAIL"; KLog "HIGH_FRAUD" "MEDIUM"]
  else if String.eqb severity "MEDIUM" then
    [KVerify "SMS_CODE"; KLog "MEDIUM_FRAUD" "LOW"]
  else
    [KLog "LOW_FRAUD" "INFO"].

(** The descriptions reported for each tier; they name the transaction and
    the user the actions were applied to. *)
Definition tier_actions (severity transaction_id user_id : string)
  : list string :=
  if String.eqb severity "CRITICAL" then
    ["Blocked transaction " +:+ transaction_id;
     "Froze account " +:+ user_id +:+ " for 24 hours";
     "Sent urgent fraud alert to " +:+ user_id;
     "Logged critical security event"]
  else if String.eqb severity "HIGH" then
    ["Required 2FA verification for " +:+ user_id;
     "Sent security alert to " +:+ user_id;
     "Logged high-risk security event"]
  else if String.eqb severity "MEDIUM" then
    ["Required SMS verification for " +:+ user_id;
     "Logged medium-risk security event"]
  else
    ["Logged low-risk security event"].

(** The same alert with another factor list, severity label, stored
    recommendation and timestamp. *)
Definition with_details (fraud_alert : AlertData.t)
  (risk_factors : option (list string))
  (severity recommended_action timestamp : option string) : AlertData.t :=
  AlertData.mk (AlertData.transaction_id fraud_alert)
    (AlertData.user_id fraud_alert) (AlertData.risk_score fraud_alert)
    risk_factors severity recommended_action timestamp.

(** The two tests of the fallback rule. *)
Definition high_amount (transaction_data : TransactionData.t) : bool :=
  (1000 <? TransactionData.amount transaction_data)%float.

Definition unknown_location (transaction_data : TransactionData.t) : bool :=
  PyStr.contains "unknown"
    (PyStr.lower (TransactionData.location transaction_data)).

End Design.

(* ===================================================================== *)
(** * Order of binary64 values                                            *)
(* ===================================================================== *)

Module PyFloatFacts.
Import PyFloat.

Lemma SFcompare_rank (x y : spec_float) :
  SFcompare x y =
  match rank x, rank y with
  | Some a, Some b => Some (lexcmp a b)
  | _, _ => None
  end.
Proof.
  destruct x as [sx | sx | | sx mx ex], y as [sy | sy | | sy my ey];
    try destruct sx; try destruct sy; try reflexivity; cbn;
    rewrite ?Z.compare_opp, ?Pos.compare_cont_spec; cbn.
  all: rewrite ?(Z.compare_antisym ex ey);
    destruct (ex ?= ey); cbn; try reflexivity;
    destruct (mx ?= my)%positive; reflexivity.
Qed.

Lemma lexcmp_lt (a b : Z * Z * Z) : lexcmp a b = Lt <-> lexlt a b.
Proof.
  destruct a as [[a1 a2] a3], b as [[b1 b2] b3]. unfold lexcmp, lexlt.
  destruct (Z.compare_spec a1 b1); destruct (Z.compare_spec a2 b2);
    destruct (Z.compare_spec a3 b3); split; intros; try discriminate;
    try reflexivity; lia.
Qed.

Lemma lexcmp_le (a b : Z * Z * Z) : lexcmp a b <> Gt <-> lexle a b.
Proof.
  destruct a as [[a1 a2] a3], b as [[b1 b2] b3]. unfold lexcmp, lexle.
  destruct (Z.compare_spec a1 b1); destruct (Z.compare_spec a2 b2);
    destruct (Z.compare_spec a3 b3); split; intros; try discriminate;
    try congruence; lia.
Qed.

(** [x < y] holds exactly when both are numbers and [x] ranks below [y]. *)
Lemma ltb_rank (x y : float) :
  (x <? y)%float = true <->
  match frank x, frank y with
  | Some a, Some b => lexlt a b
  | _, _ => False
  end.
Proof.
  rewrite ltb_spec. unfold SFltb, frank. rewrite SFcompare_rank.
  destruct (rank (Prim2SF x)) as [a |], (rank (Prim2SF y)) as [b |];
    try (split; [discriminate | tauto]).
  rewrite <- lexcmp_lt. destruct (lexcmp a b); split; congruence.
Qed.

Lemma leb_rank (x y : float) :
  (x <=? y)%float = true <->
  match frank x, frank y with
  | Some a, Some b => lexle a b
  | _, _ => False
  end.
Proof.
  rewrite leb_spec. unfold SFleb, frank. rewrite SFcompare_rank.
  destruct (rank (Prim2SF x)) as [a |], (rank (Prim2SF y)) as [b |];
    try (split; [discriminate | tauto]).
  rewrite <- lexcmp_le. destruct (lexcmp a b); split; congruence.
Qed.

Lemma ltb_false_rank (x y : float) :
  (x <? y)%float = false <->
  ~ match frank x, frank y with
    | Some a, Some b => lexlt a b
    | _, _ => False
    end.
Proof. rewrite <- ltb_rank. destruct (x <? y)%float; split; congruence. Qed.

Lemma leb_false_rank (x y : float) :
  (x <=? y)%float = false <->
  ~ match frank x, frank y with
    | Some a, Some b => lexle a b
    | _, _ => False
    end.
Proof. rewrite <- leb_rank. destruct (x <=? y)%float; split; congruence. Qed.

(** Turns every float comparison in sight into linear arithmetic over the
    ranks of its operands, and solves the result. *)
Ltac float_rank_of c :=
  first
    [ is_var c;
      let a := fresh "a" in let b := fresh "b" in let d := fresh "d" in
      destruct (frank c) as [[[a b] d] |]
    | let v := eval vm_compute in (frank c) in
      change (frank c) with v in * ].

Ltac float_order :=
  unfold flt, fle in *;
  repeat match goal with
    | H : (_ <? _)%float = true |- _ => apply ltb_rank in H
    | H : (_ <=? _)%float = true |- _ => apply leb_rank in H
    | H : (_ <? _)%float = false |- _ => apply ltb_false_rank in H
    | H : (_ <=? _)%float = false |- _ => apply leb_false_rank in H
    | |- (_ <? _)%float = true => apply ltb_rank
    | |- (_ <=? _)%float = true => apply leb_rank
    | |- (_ <? _)%float = false => apply ltb_false_rank
    | |- (_ <=? _)%float = false => apply leb_false_rank
    end;
  repeat match goal with
    | H : context [frank ?c] |- _ => float_rank_of c
    | |- context [frank ?c] => float_rank_of c
    end;
  unfold lexlt, lexle in *; first [lia | tauto].

Lemma ltb_not_leb (x y : float) :
  (x <? y)%float = true -> (y <=? x)%float = false.
Proof. intros H. float_order. Qed.

Lemma leb_not_ltb (x y : float) :
  (x <=? y)%float = true -> (y <? x)%float = false.
Proof. intros H. float_order. Qed.

Lemma ltb_leb_trans (x y z : float) :
  (x <? y)%float = true -> (y <=? z)%float = true -> (x <? z)%float = true.
Proof. intros H1 H2. float_order. Qed.

Lemma leb_ltb_trans (x y z : float) :
  (x <=? y)%float = true -> (y <? z)%float = true -> (x <? z)%float = true.
Proof. intros H1 H2. float_order. Qed.

Lemma leb_trans (x y z : float) :
  (x <=? y)%float = true -> (y <=? z)%float = true -> (x <=? z)%float = true.
Proof. intros H1 H2. float_order. Qed.

(** Two numbers are always comparable: only NaN escapes the order. *)
Lemma not_leb_ltb (x y : float) :
  (x <=? x)%float = true -> (y <=? y)%float = true ->
  (x <=? y)%float = false -> (y <? x)%float = true.
Proof. intros H1 H2 H3. float_order. Qed.

End PyFloatFacts.

(* ===================================================================== *)
(** * The severity classifier                                             *)
(* ===================================================================== *)

Module ClassifierProps.
Import PyFloat PyFloatFacts FraudDetection Design.

(** Case analysis on the three tests of the ladder. *)
Ltac ladder s :=
  unfold critical_range, high_range, medium_range, low_range,
    CRITICAL, HIGH, MEDIUM, LOW, classify in *;
  destruct (0.7 <=? s)%float eqn:?; destruct (0.5 <=? s)%float eqn:?;
  destruct (0.3 <=? s)%float eqn:?.

Ltac ladder_solve s :=
  ladder s; repeat split; intros;
  repeat match goal with H : _ /\ _ |- _ => destruct H end;
  first [ discriminate | reflexivity | float_order | exfalso; float_order ].

(** The classifier answers with one of the four tiers, whatever the float
    (a NaN fails every test and lands on LOW). *)
Lemma classify_cases (s : float) :
  classify s = CRITICAL \/ classify s = HIGH \/ classify s = MEDIUM \/
  classify s = LOW.
Proof. ladder s; tauto. Qed.

Lemma ranges_cover (s : float) :
  fle 0 s -> fle s 1 ->
  critical_range s \/ high_range s \/ medium_range s \/ low_range s.
Proof.
  intros H0 H1.
  ladder s; first
    [ left; float_order
    | right; left; split; float_order
    | right; right; left; split; float_order
    | right; right; right; float_order ].
Qed.

(** C1. The severity classifier is a total function of the score.  For a
    score in [0,1] each tier is returned exactly on its range: at least
    0.7 gives CRITICAL with BLOCK_TRANSACTION_AND_FREEZE_ACCOUNT, from 0.5
    up to but excluding 0.7 gives HIGH with REQUIRE_ADDITIONAL_VERIFICATION,
    from 0.3 up to but excluding 0.5 gives MEDIUM with
    REQUIRE_BASIC_VERIFICATION, below 0.3 gives LOW with MONITOR_ONLY; one
    and only one of the four ranges holds; 0.70 is CRITICAL and 0.6999 is
    HIGH. *)
Theorem classify_ladder (s : float) :
  fle 0 s -> fle s 1 ->
  (critical_range s <-> classify s = CRITICAL) /\
  (high_range s <-> classify s = HIGH) /\
  (medium_range s <-> classify s = MEDIUM) /\
  (low_range s <-> classify s = LOW) /\
  (critical_range s \/ high_range s \/ medium_range s \/ low_range s) /\
  ~ (critical_range s /\ high_range s) /\
  ~ (critical_range s /\ medium_range s) /\
  ~ (critical_range s /\ low_range s) /\
  ~ (high_range s /\ medium_range s) /\
  ~ (high_range s /\ low_range s) /\
  ~ (medium_range s /\ low_range s) /\
  classify 0.7 = CRITICAL /\
  classify 0.6999 = HIGH.
Proof.
  intros H0 H1.
  split; [ladder_solve s |].
  split; [ladder_solve s |].
  split; [ladder_solve s |].
  split; [ladder_solve s |].
  split; [apply ranges_cover; assumption |].
  split; [intros H; ladder_solve s |].
  split; [intros H; ladder_solve s |].
  split; [intros H; ladder_solve s |].
  split; [intros H; ladder_solve s |].
  split; [intros H; ladder_solve s |].
  split; [intros H; ladder_solve s |].
  split; reflexivity.
Qed.

(** The ladder at a concrete score inside [0,1]. *)
Lemma classify_ladder_witness :
  fle 0 0.55 /\ fle 0.55 1 /\ classify 0.55 = HIGH.
Proof.
  assert (H0 : fle 0 0.55) by reflexivity.
  assert (H1 : fle 0.55 1) by reflexivity.
  split; [exact H0 |]. split; [exact H1 |].
  apply (proj1 (proj1 (proj2 (classify_ladder 0.55 H0 H1)))).
  split; reflexivity.
Defined.

End ClassifierProps.

(* ===================================================================== *)
(** * The signal analyzers                                                *)
(* ===================================================================== *)

Module AnalyzerProps.
Import PyFloat PyFloatFacts FraudDetection Design.

Lemma amount_score_user (a : float) (u : string) :
  risk_score (analyze_transaction_amount a u) = amount_score a.
Proof. reflexivity. Qed.

(** The amount contribution is the float sum of the two parts. *)
Lemma amount_score_rule (a : float) :
  amount_score a = (amount_base a + amount_bonus a)%float.
Proof.
  unfold amount_score, amount_base, amount_bonus, analyze_transaction_amount.
  destruct (5000 <? a)%float; destruct (1000 <? a)%float;
    destruct (float_rem a 100 =? 0)%float; reflexivity.
Qed.

(** On the amounts 0, 12.5, 25, ... up to 12500 the test [a % 100 == 0]
    picks exactly the multiples of 100. *)
Lemma round_test_checked :
  forallb round_test (map Z.of_nat (seq 0 1001)) = true.
Proof. vm_compute. reflexivity. Qed.

(** The six values the amount contribution takes. *)
Lemma amount_score_values (a : float) :
  In (amount_score a)
    [0%float; 0.05%float; 0.1%float; (0.1 + 0.05)%float; 0.3%float;
     0.35%float].
Proof.
  unfold amount_score, analyze_transaction_amount.
  destruct (5000 <? a)%float; destruct (1000 <? a)%float;
    destruct (float_rem a 100 =? 0)%float; vm_compute; tauto.
Qed.

Lemma amount_band_mono (a b : float) :
  fle a b -> amount_band a <= amount_band b.
Proof.
  intros H. unfold amount_band.
  destruct (5000 <? a)%float eqn:?; destruct (1000 <? a)%float eqn:?;
    destruct (5000 <? b)%float eqn:?; destruct (1000 <? b)%float eqn:?;
    first [ lia | exfalso; float_order ].
Qed.

Lemma amount_base_mono (a b : float) :
  fle a b -> fle (amount_base a) (amount_base b).
Proof.
  intros H. unfold amount_base.
  destruct (5000 <? a)%float eqn:?; destruct (1000 <? a)%float eqn:?;
    destruct (5000 <? b)%float eqn:?; destruct (1000 <? b)%float eqn:?;
    first [ reflexivity | exfalso; float_order ].
Qed.

(** A larger band never scores less, whatever the round-amount part. *)
Lemma amount_score_across_bands (a b : float) :
  amount_band a < amount_band b -> fle (amount_score a) (amount_score b).
Proof.
  unfold amount_band, amount_score, analyze_transaction_amount.
  destruct (5000 <? a)%float; destruct (1000 <? a)%float;
    destruct (5000 <? b)%float; destruct (1000 <? b)%float;
    destruct (float_rem a 100 =? 0)%float;
    destruct (float_rem b 100 =? 0)%float;
    intros H; first [ reflexivity | lia ].
Qed.

(** With the same round-amount part, a larger amount never scores less. *)
Lemma amount_score_same_bonus (a b : float) :
  fle a b -> amount_bonus a = amount_bonus b ->
  fle (amount_score a) (amount_score b).
Proof.
  intros H Hb. rewrite !amount_score_rule, Hb.
  pose proof (amount_base_mono a b H) as Hm.
  unfold amount_base, amount_bonus in *.
  destruct (5000 <? a)%float; destruct (1000 <? a)%float;
    destruct (5000 <? b)%float; destruct (1000 <? b)%float;
    destruct (float_rem b 100 =? 0)%float;
    first [ reflexivity | discriminate Hm ].
Qed.

(** C9. For every amount [a >= 0] the amount contribution (0.3 above 5000,
    else 0.1 above 1000, plus 0.05 when [a] is an exact multiple of 100)
    lies in [0, 0.35], and it is non-decreasing across the breakpoints 0,
    1000 and 5000: its tier part never decreases as the amount grows, an
    amount beyond a breakpoint never scores less than one at or below it,
    amounts with the same round-amount part are ordered like their tiers,
    and the contributions at 0, 1000 and 5000 are 0.05, 0.05 and
    0.1 + 0.05. *)
Theorem amount_contribution (a : float) (u : string) :
  fle 0 a ->
  let c := risk_score (analyze_transaction_amount a u) in
  fle 0 c /\ fle c 0.35 /\
  c = (amount_base a + amount_bonus a)%float /\
  (forall b, fle a b -> fle (amount_base a) (amount_base b)) /\
  (forall b, fle a 1000 -> flt 1000 b -> fle c (amount_score b)) /\
  (forall b, fle a 5000 -> flt 5000 b -> fle c (amount_score b)) /\
  (forall b, fle a b -> amount_bonus a = amount_bonus b ->
             fle c (amount_score b)) /\
  amount_score 0 = 0.05%float /\
  amount_score 1000 = 0.05%float /\
  amount_score 5000 = (0.1 + 0.05)%float /\
  fle (amount_score 0) (amount_score 1000) /\
  fle (amount_score 1000) (amount_score 5000).
Proof.
  intros H0 c. subst c. rewrite amount_score_user.
  split; [| split ].
  - pose proof (amount_score_values a) as Hv. cbn [In] in Hv.
    destruct Hv as [<- | [<- | [<- | [<- | [<- | [<- | []]]]]]]; reflexivity.
  - pose proof (amount_score_values a) as Hv. cbn [In] in Hv.
    destruct Hv as [<- | [<- | [<- | [<- | [<- | [<- | []]]]]]]; reflexivity.
  - split; [apply amount_score_rule |].
    split; [intros b; apply amount_base_mono |].
    split.
    { intros b Ha Hb. apply amount_score_across_bands. unfold amount_band.
      destruct (5000 <? a)%float eqn:?; destruct (1000 <? a)%float eqn:?;
        destruct (5000 <? b)%float eqn:?; destruct (1000 <? b)%float eqn:?;
        first [ lia | exfalso; float_order ]. }
    split.
    { intros b Ha Hb. apply amount_score_across_bands. unfold amount_band.
      destruct (5000 <? a)%float eqn:?; destruct (1000 <? a)%float eqn:?;
        destruct (5000 <? b)%float eqn:?; destruct (1000 <? b)%float eqn:?;
        first [ lia | exfalso; float_order ]. }
    split; [intros b; apply amount_score_same_bonus |].
    repeat split; vm_compute; reflexivity.
Qed.

(** The amount rule at 2500: above the first breakpoint, a multiple of 100. *)
Lemma amount_contribution_witness :
  fle 0 2500 /\ risk_score (analyze_transaction_amount 2500 "user_1") = (0.1 + 0.05)%float.
Proof.
  assert (H0 : fle 0 2500) by reflexivity.
  split; [exact H0 |].
  rewrite (proj1 (proj2 (proj2 (amount_contribution 2500 "user_1" H0)))).
  vm_compute. reflexivity.
Defined.

(** Inside one band the round-amount part breaks the order of amounts: 100
    scores 0.05 and the larger 150 scores 0. *)
Lemma amount_score_within_band :
  fle 100 150 /\ amount_band 100 = amount_band 150 /\
  amount_score 100 = 0.05%float /\ amount_score 150 = 0%float /\
  flt (amount_score 150) (amount_score 100).
Proof. repeat split; vm_compute; reflexivity. Qed.

(** C10. The velocity analyzer is constant: for every user identifier and
    every amount it reports 3 recent transactions and returns the
    contribution 0.2 with the single factor "Elevated transaction
    velocity"; it has no input through which a velocity count could reach
    it, so two calls differ in nothing but the user identifier they echo. *)
Theorem velocity_constant (user_id : string) (current_amount : float) :
  let r := check_velocity_patterns user_id current_amount in
  r = {| analysis_type := "velocity_analysis";
         echo := [("user_id", VStr user_id);
                  ("recent_transaction_count", VInt 3)];
         risk_factors := ["Elevated transaction velocity"];
         risk_score := 0.2 |} /\
  risk_score r = 0.2%float /\
  risk_factors r = ["Elevated transaction velocity"] /\
  (forall user_id' current_amount',
     risk_score (check_velocity_patterns user_id' current_amount')
       = risk_score r /\
     risk_factors (check_velocity_patterns user_id' current_amount')
       = risk_factors r /\
     check_velocity_patterns user_id current_amount' = r).
Proof. repeat split. Qed.

(** Refutes an equation between two different float constants. *)
Ltac float_discr E :=
  match type of E with
  | ?x = ?y =>
      apply (f_equal (fun z => (z =? y)%float)) in E; vm_compute in E;
      discriminate E
  end.

Lemma unusual_hour_iff (h : Z) :
  (h <? 6) || (h >? 23) = true <-> h < 6 \/ h > 23.
Proof. rewrite orb_true_iff, Z.ltb_lt, Z.gtb_ltb, Z.ltb_lt. lia. Qed.

Section Time.

Variable fromisoformat : string -> option datetime.

Local Abbreviation parsed := (Design.parsed fromisoformat).

(** The analysis of a timestamp the parser accepts. *)
Lemma time_score_parsed (timestamp user_id : string) (dt : datetime) :
  parsed timestamp = Some dt ->
  let r := analyze_time_pattern fromisoformat timestamp user_id in
  (hour dt < 6 \/ hour dt > 23 <-> risk_score r = 0.2%float) /\
  (~ (hour dt < 6 \/ hour dt > 23) <-> risk_score r = 0%float) /\
  (hour dt < 6 \/ hour dt > 23 ->
     risk_factors r =
     ["Unusual transaction time: " +:+ PyStr.str_int (hour dt) +:+ ":00"]) /\
  (~ (hour dt < 6 \/ hour dt > 23) -> risk_factors r = []).
Proof.
  unfold Design.parsed, analyze_time_pattern. intros ->.
  pose proof (unusual_hour_iff (hour dt)) as Hu.
  destruct ((hour dt <? 6) || (hour dt >? 23)); cbn.
  - assert (Hyes : hour dt < 6 \/ hour dt > 23) by (apply Hu; reflexivity).
    split; [tauto |]. split; [| tauto].
    split; [tauto | intros E; float_discr E].
  - assert (Hno : ~ (hour dt < 6 \/ hour dt > 23))
      by (intros H; apply Hu in H; discriminate).
    split; [split; [tauto | intros E; float_discr E] |].
    split; tauto.
Qed.

(** The analysis of a timestamp the parser refuses. *)
Lemma time_score_unparsed (timestamp user_id : string) :
  parsed timestamp = None ->
  let r := analyze_time_pattern fromisoformat timestamp user_id in
  risk_score r = 0.1%float /\ risk_factors r = ["Invalid timestamp format"].
Proof.
  unfold Design.parsed, analyze_time_pattern. intros ->. split; reflexivity.
Qed.

(** From 06:00 to the end of the day nothing is added: a [datetime] has no
    hour above 23, so the test [hour > 23] holds for none of them and the
    late evening, 23:00 to 23:59 included, scores 0.0 with no factor. *)
Lemma late_hours_score_zero (timestamp user_id : string) (dt : datetime) :
  parsed timestamp = Some dt -> 6 <= hour dt <= 23 ->
  let r := analyze_time_pattern fromisoformat timestamp user_id in
  risk_score r = 0%float /\ risk_factors r = [].
Proof.
  intros Hp Hr r. subst r.
  destruct (time_score_parsed timestamp user_id dt Hp) as (_ & H0 & _ & Hf).
  split; [apply H0 | apply Hf]; lia.
Qed.

(** With a parser that keeps the hour within 0..23, as a [datetime] does,
    the second test of the analyzer never fires: the contribution is 0.2
    exactly for hours below 6. *)
Lemma time_analyzer_valid_hour (timestamp user_id : string) (dt : datetime) :
  parsed timestamp = Some dt -> 0 <= hour dt <= 23 ->
  (hour dt < 6 <->
   risk_score (analyze_time_pattern fromisoformat timestamp user_id)
     = 0.2%float).
Proof.
  intros Hp Hr.
  destruct (time_score_parsed timestamp user_id dt Hp) as (H1 & _).
  rewrite <- H1. lia.
Qed.

End Time.

(** The three outcomes of the time analyzer, run with the fixed-width
    parser: 02:00 is unusual, 14:00 and 23:30 are not, and a text that is
    no timestamp scores 0.1. *)
Example time_analyzer_examples :
  risk_score (analyze_time_pattern IsoFormat.fromisoformat
                "2024-01-15T02:00:00Z" "u") = 0.2%float /\
  risk_factors (analyze_time_pattern IsoFormat.fromisoformat
                  "2024-01-15T02:00:00Z" "u")
    = ["Unusual transaction time: 2:00"] /\
  risk_score (analyze_time_pattern IsoFormat.fromisoformat
                "2024-01-15T14:00:00" "u") = 0%float /\
  risk_score (analyze_time_pattern IsoFormat.fromisoformat
                "2024-01-15T23:30:00" "u") = 0%float /\
  risk_score (analyze_time_pattern IsoFormat.fromisoformat
                "yesterday" "u") = 0.1%float.
Proof. repeat split; vm_compute; reflexivity. Qed.

(** C8, on the code.  The time analyzer is expected to add 0.2 when the
    local hour is before 06:00 or after 23:00, and the comment in the code
    announces "late night/early morning".  For the timestamp
    "2024-01-15T23:30:00", which parses to 23:30, it adds nothing and
    reports no factor, while 05:59 of the same day is flagged with 0.2. *)
Example time_analyzer_late_night :
  option_map (fun dt => (hour dt, minute dt))
    (IsoFormat.fromisoformat "2024-01-15T23:30:00") = Some (23, 30) /\
  risk_score (analyze_time_pattern IsoFormat.fromisoformat
                "2024-01-15T23:30:00" "user_1") = 0%float /\
  risk_factors (analyze_time_pattern IsoFormat.fromisoformat
                  "2024-01-15T23:30:00" "user_1") = [] /\
  risk_score (analyze_time_pattern IsoFormat.fromisoformat
                "2024-01-15T05:59:00" "user_1") = 0.2%float.
Proof. repeat split; vm_compute; reflexivity. Qed.

End AnalyzerProps.

(* ===================================================================== *)
(** * The risk aggregator                                                 *)
(* ===================================================================== *)

Module AggregatorProps.
Import PyFloat PyFloatFacts FraudDetection Design Samples.

Lemma tier_eqb_eq (x y : string * string) : tier_eqb x y = true -> x = y.
Proof.
  destruct x, y. unfold tier_eqb. cbn.
  rewrite andb_true_iff, !String.eqb_eq. intros [-> ->]. reflexivity.
Qed.

Lemma aggregate_from (l : list Analysis) (acc : Acc) :
  fold_left
    (fun acc analysis =>
       (fst acc ++ risk_factors analysis,
        (snd acc + risk_score analysis)%float)) l acc
  = (fst acc ++ concat (map risk_factors l),
     fold_left (fun total score => (total + score)%float)
       (map risk_score l) (snd acc)).
Proof.
  revert acc. induction l as [| a l IH]; intros [fs total]; cbn.
  - rewrite app_nil_r. reflexivity.
  - rewrite IH. cbn. rewrite <- app_assoc. reflexivity.
Qed.

(** The aggregation loop concatenates the factor lists and adds the scores
    from left to right. *)
Lemma aggregate_spec (l : list Analysis) :
  aggregate l
  = (concat (map risk_factors l),
     fold_left (fun total score => (total + score)%float)
       (map risk_score l) 0%float).
Proof. unfold aggregate. rewrite aggregate_from. reflexivity. Qed.

Lemma location_score_values (location user_id : string) :
  In (risk_score (analyze_location_pattern location user_id)) location_values.
Proof.
  unfold analyze_location_pattern.
  destruct (existsb _ _); destruct (PyStr.contains "ATM" location);
    vm_compute; tauto.
Qed.

Lemma device_score_values (device_id user_id : string) :
  In (risk_score (analyze_device_pattern device_id user_id)) device_values.
Proof.
  unfold analyze_device_pattern.
  destruct (_ || _); vm_compute; tauto.
Qed.

Lemma time_score_values (fromisoformat : string -> option datetime)
  (timestamp user_id : string) :
  In (risk_score (analyze_time_pattern fromisoformat timestamp user_id))
    time_values.
Proof.
  unfold analyze_time_pattern.
  destruct (fromisoformat _) as [dt |]; [destruct (_ || _) |];
    vm_compute; tauto.
Qed.

Lemma velocity_score_values (user_id : string) (amount : float) :
  In (risk_score (check_velocity_patterns user_id amount)) velocity_values.
Proof. vm_compute; tauto. Qed.

Lemma candidates_complete (a l d t v : float) :
  In a amount_values -> In l location_values -> In d device_values ->
  In t time_values -> In v velocity_values ->
  In [a; l; d; t; v] candidates.
Proof.
  intros Ha Hl Hd Ht Hv. unfold candidates.
  apply in_flat_map. exists a. split; [exact Ha |].
  apply in_flat_map. exists l. split; [exact Hl |].
  apply in_flat_map. exists d. split; [exact Hd |].
  apply in_flat_map. exists t. split; [exact Ht |].
  apply in_map_iff. exists v. split; [reflexivity | exact Hv].
Qed.

(** All candidates pass both checks: a finite computation. *)
Lemma candidates_checked :
  forallb (fun scores => range_check scores && reorder_check scores)
    candidates = true.
Proof. vm_compute. reflexivity. Qed.

Lemma checked_scores (a l d t v : float) :
  In a amount_values -> In l location_values -> In d device_values ->
  In t time_values -> In v velocity_values ->
  range_check [a; l; d; t; v] = true /\ reorder_check [a; l; d; t; v] = true.
Proof.
  intros Ha Hl Hd Ht Hv.
  pose proof (candidates_complete a l d t v Ha Hl Hd Ht Hv) as Hin.
  pose proof candidates_checked as Hall.
  rewrite forallb_forall in Hall. specialize (Hall _ Hin).
  apply andb_true_iff in Hall. exact Hall.
Qed.

Section Pipeline.

Variable fromisoformat : string -> option datetime.
Variable call_bedrock_directly :
  TransactionData.t -> float -> list string -> string.
Variable now : datetime.

Local Abbreviation contributions := (Design.contributions fromisoformat).

Lemma contributions_checked (transaction_data : TransactionData.t) :
  range_check (contributions transaction_data) = true /\
  reorder_check (contributions transaction_data) = true.
Proof.
  unfold Design.contributions, analyses. cbn [map].
  apply checked_scores.
  - rewrite AnalyzerProps.amount_score_user.
    apply AnalyzerProps.amount_score_values.
  - apply location_score_values.
  - apply device_score_values.
  - apply time_score_values.
  - apply velocity_score_values.
Qed.

(** The fields of the alert the [try] block builds. *)
Lemma alert_fields (transaction_data : TransactionData.t) :
  let alert :=
    process_transaction_alert_try fromisoformat call_bedrock_directly now
      transaction_data in
  FraudAlert.risk_score alert = clamped_sum (contributions transaction_data) /\
  FraudAlert.risk_factors alert =
    concat (map risk_factors (analyses fromisoformat transaction_data)) /\
  (FraudAlert.severity alert, FraudAlert.recommended_action alert) =
    classify (clamped_sum (contributions transaction_data)).
Proof.
  unfold process_transaction_alert_try, contributions, clamped_sum.
  rewrite aggregate_spec.
  destruct (classify _) as [severity action] eqn:E.
  cbn [FraudAlert.risk_score FraudAlert.risk_factors FraudAlert.severity
       FraudAlert.recommended_action].
  repeat split.
Qed.

(** C3, as the code has it.  The aggregate risk score of a transaction is
    the sum of the five contributions, taken from left to right in the
    order amount, location, device, time, velocity starting from 0.0, and
    capped at 1.0; it lies in [0,1]; the merged factor list is the
    concatenation of the five factor lists in that order.  Summing the
    contributions in another order never changes the severity tier and
    moves the score by at most one unit in the last place (2^-52): binary64
    addition is commutative but not associative. *)
Theorem aggregate_risk_score (transaction_data : TransactionData.t) :
  let alert :=
    process_transaction_alert fromisoformat call_bedrock_directly now None
      transaction_data in
  let user_id := TransactionData.user_id transaction_data in
  let amount_analysis :=
    analyze_transaction_amount (TransactionData.amount transaction_data)
      user_id in
  let location_analysis :=
    analyze_location_pattern (TransactionData.location transaction_data)
      user_id in
  let device_analysis :=
    analyze_device_pattern (TransactionData.device_id transaction_data)
      user_id in
  let time_analysis :=
    analyze_time_pattern fromisoformat
      (TransactionData.timestamp transaction_data) user_id in
  let velocity_analysis :=
    check_velocity_patterns user_id
      (TransactionData.amount transaction_data) in
  let scores :=
    [risk_score amount_analysis; risk_score location_analysis;
     risk_score device_analysis; risk_score time_analysis;
     risk_score velocity_analysis] in
  FraudAlert.risk_score alert = clamped_sum scores /\
  fle 0 (FraudAlert.risk_score alert) /\
  fle (FraudAlert.risk_score alert) 1 /\
  FraudAlert.risk_factors alert =
    risk_factors amount_analysis ++ risk_factors location_analysis ++
    risk_factors device_analysis ++ risk_factors time_analysis ++
    risk_factors velocity_analysis /\
  (FraudAlert.severity alert, FraudAlert.recommended_action alert) =
    classify (FraudAlert.risk_score alert) /\
  (forall scores' : list float,
     Permutation scores scores' ->
     classify (clamped_sum scores') = classify (FraudAlert.risk_score alert) /\
     fle (abs (clamped_sum scores' - FraudAlert.risk_score alert)) ulp).
Proof.
  intros alert user_id amount_analysis location_analysis device_analysis
    time_analysis velocity_analysis scores.
  destruct (alert_fields transaction_data) as (Hscore & Hfactors & Htier).
  change (process_transaction_alert_try fromisoformat call_bedrock_directly
            now transaction_data) with alert in Hscore, Hfactors, Htier.
  change (contributions transaction_data) with scores in Hscore, Htier.
  destruct (contributions_checked transaction_data) as [Hrange Hreorder].
  change (contributions transaction_data) with scores in Hrange, Hreorder.
  apply andb_true_iff in Hrange. destruct Hrange as [Hlo Hhi].
  split; [exact Hscore |]. rewrite Hscore.
  split; [exact Hlo |]. split; [exact Hhi |].
  split.
  { rewrite Hfactors. unfold analyses. cbn [map concat].
    rewrite app_nil_r. reflexivity. }
  split; [exact Htier |].
  intros scores' Hperm.
  unfold reorder_check in Hreorder. rewrite forallb_forall in Hreorder.
  assert (Hin : In scores' (permutations scores)).
  { apply list_elem_of_In. apply permutations_Permutation. exact Hperm. }
  specialize (Hreorder _ Hin). apply andb_true_iff in Hreorder.
  destruct Hreorder as [Hsame Hulp].
  split; [apply tier_eqb_eq; exact Hsame | exact Hulp].
Qed.

End Pipeline.

(** The claim of C3 that the score is the same for every order of the five
    summands fails: the contributions of [round_unknown] add up to 0.65 in
    the order of the pipeline and to 0.6500000000000001 in the reverse
    order. *)
Lemma aggregate_order_dependent :
  let scores := contributions IsoFormat.fromisoformat round_unknown in
  scores = [0.05%float; 0.4%float; 0%float; 0%float; 0.2%float] /\
  Permutation scores (rev scores) /\
  clamped_sum scores = 0.65%float /\
  clamped_sum (rev scores) = 0.6500000000000001%float /\
  clamped_sum (rev scores) <> clamped_sum scores.
Proof.
  intros scores.
  assert (Hs : scores = [0.05%float; 0.4%float; 0%float; 0%float; 0.2%float])
    by (vm_compute; reflexivity).
  split; [exact Hs |]. split; [apply Permutation_rev |].
  rewrite Hs. split; [vm_compute; reflexivity |].
  split; [vm_compute; reflexivity |].
  intros E. vm_compute in E. AnalyzerProps.float_discr E.
Qed.

End AggregatorProps.

(* ===================================================================== *)
(** * The response executor                                               *)
(* ===================================================================== *)

Module ResponseProps.
Import PyFloat PyFloatFacts FraudDetection ThreatResponseAgent Design.

Section Executor.

Variable float_str : float -> string.
Variable call_bedrock_directly : string -> AlertData.t -> string.
Variable now : datetime.
Variable elapsed_ms : Z.

Local Abbreviation respond :=
  (execute_threat_response float_str call_bedrock_directly now elapsed_ms None).

(** C2. The response executor picks its branch from the score of the
    alert with the thresholds of the classifier (0.7, 0.5, 0.3): the
    actions it reports and the kinds of the calls it makes are those of the
    tier the classifier gives that score.  At least 0.7 runs four actions
    in the order block, freeze for 24 hours, urgent alert, log; from 0.5 up
    to 0.7 three (two-factor verification, alert, log); from 0.3 up to 0.5
    two (code verification, log); otherwise the log alone.  The factor
    list, like the stored severity and recommendation, has no influence. *)
Theorem response_follows_ladder (alert_id : string) (fraud_alert : AlertData.t) :
  let risk_score := get (AlertData.risk_score fraud_alert) 0%float in
  let transaction_id := get (AlertData.transaction_id fraud_alert) "unknown" in
  let user_id := get (AlertData.user_id fraud_alert) "unknown" in
  let tier := fst (classify risk_score) in
  let response := fst (respond alert_id fraud_alert) in
  let calls := snd (respond alert_id fraud_alert) in
  ThreatResponse.actions_taken response
    = tier_actions tier transaction_id user_id /\
  map call_kind calls = tier_kinds tier /\
  ThreatResponse.status response = "completed" /\
  (fle 0.7 risk_score ->
   map call_kind calls =
     [KBlock; KFreeze 24; KAlert "SMS"; KLog "CRITICAL_FRAUD" "HIGH"] /\
   ThreatResponse.actions_taken response =
     ["Blocked transaction " +:+ transaction_id;
      "Froze account " +:+ user_id +:+ " for 24 hours";
      "Sent urgent fraud alert to " +:+ user_id;
      "Logged critical security event"]) /\
  (fle 0.5 risk_score -> flt risk_score 0.7 ->
   map call_kind calls =
     [KVerify "2FA"; KAlert "EMAIL"; KLog "HIGH_FRAUD" "MEDIUM"] /\
   ThreatResponse.actions_taken response =
     ["Required 2FA verification for " +:+ user_id;
      "Sent security alert to " +:+ user_id;
      "Logged high-risk security event"]) /\
  (fle 0.3 risk_score -> flt risk_score 0.5 ->
   map call_kind calls = [KVerify "SMS_CODE"; KLog "MEDIUM_FRAUD" "LOW"] /\
   ThreatResponse.actions_taken response =
     ["Required SMS verification for " +:+ user_id;
      "Logged medium-risk security event"]) /\
  ((0.3 <=? risk_score)%float = false ->
   map call_kind calls = [KLog "LOW_FRAUD" "INFO"] /\
   ThreatResponse.actions_taken response =
     ["Logged low-risk security event"]) /\
  (forall risk_factors severity recommended_action timestamp,
     let other :=
       with_details fraud_alert risk_factors severity recommended_action
         timestamp in
     ThreatResponse.actions_taken (fst (respond alert_id other))
       = ThreatResponse.actions_taken response /\
     map call_kind (snd (respond alert_id other)) = map call_kind calls).
Proof.
  intros risk_score transaction_id user_id tier response calls.
  subst tier response calls.
  unfold execute_threat_response, execute_threat_response_try.
  cbn [with_details AlertData.risk_score AlertData.transaction_id
       AlertData.user_id].
  fold risk_score transaction_id user_id. unfold classify.
  destruct (0.7 <=? risk_score)%float eqn:H7;
    destruct (0.5 <=? risk_score)%float eqn:H5;
    destruct (0.3 <=? risk_score)%float eqn:H3;
    (split; [reflexivity |]); (split; [reflexivity |]);
    (split; [reflexivity |]);
    (split; [intros ?; first [split; reflexivity | exfalso; float_order] |]);
    (split; [intros ? ?; first [split; reflexivity | exfalso; float_order] |]);
    (split; [intros ? ?; first [split; reflexivity | exfalso; float_order] |]);
    (split; [intros ?; first [split; reflexivity | exfalso; float_order] |]);
    intros; split; reflexivity.
Qed.

End Executor.

End ResponseProps.

(* ===================================================================== *)
(** * The analysis pipeline end to end and its fallback                   *)
(* ===================================================================== *)

Module PipelineProps.
Import PyFloat PyFloatFacts FraudDetection ThreatResponseAgent.
Import Design Samples.

Section Pipeline.

Variable fromisoformat : string -> option datetime.
Variable call_bedrock_directly :
  TransactionData.t -> float -> list string -> string.
Variable now : datetime.

Variable float_str : float -> string.
Variable response_bedrock : string -> AlertData.t -> string.
Variable response_now : datetime.
Variable elapsed_ms : Z.

(** C7, as the code has it.  For a transaction of amount 50 at "New York,
    NY" on "device_123" whose timestamp parses to 14:00, the pipeline
    produces the score 0.2, not 0.0: the velocity analyzer always adds 0.2
    for its fixed count of 3 recent transactions, and no velocity count can
    be supplied.  The only factor is the velocity one, the severity is LOW
    with MONITOR_ONLY, and the response executor runs exactly one action,
    the log. *)
Theorem scenario_low_risk (transaction_data : TransactionData.t)
  (dt : datetime) :
  TransactionData.amount transaction_data = 50%float ->
  TransactionData.location transaction_data = "New York, NY" ->
  TransactionData.device_id transaction_data = "device_123" ->
  fromisoformat
    (PyStr.replace "Z"%char "+00:00" (TransactionData.timestamp transaction_data))
    = Some dt ->
  hour dt = 14 ->
  let alert :=
    process_transaction_alert fromisoformat call_bedrock_directly now None
      transaction_data in
  FraudAlert.risk_score alert = 0.2%float /\
  FraudAlert.risk_factors alert = ["Elevated transaction velocity"] /\
  FraudAlert.severity alert = "LOW" /\
  FraudAlert.recommended_action alert = "MONITOR_ONLY" /\
  (forall alert_id fraud_alert,
     AlertData.risk_score fraud_alert = Some (FraudAlert.risk_score alert) ->
     let result :=
       execute_threat_response float_str response_bedrock response_now
         elapsed_ms None alert_id fraud_alert in
     ThreatResponse.actions_taken (fst result)
       = ["Logged low-risk security event"] /\
     snd result = [log_security_event "LOW_FRAUD" "INFO" fraud_alert]).
Proof.
  intros Hamount Hlocation Hdevice Hparse Hhour alert.
  assert (Halert :
    alert = FraudAlert.mk (TransactionData.id transaction_data) 0.2
              ["Elevated transaction velocity"] "LOW" "MONITOR_ONLY" now
              (call_bedrock_directly transaction_data 0.2
                 ["Elevated transaction velocity"])).
  { subst alert.
    unfold process_transaction_alert, process_transaction_alert_try, analyses,
      analyze_time_pattern.
    rewrite Hamount, Hlocation, Hdevice, Hparse, Hhour. reflexivity. }
  rewrite Halert. cbn [FraudAlert.risk_score FraudAlert.risk_factors
                       FraudAlert.severity FraudAlert.recommended_action].
  do 4 (split; [reflexivity |]).
  intros alert_id fraud_alert Hscore.
  unfold execute_threat_response, execute_threat_response_try.
  rewrite Hscore. split; reflexivity.
Qed.

(** C6, as the code has it.  When an exception interrupts the analysis,
    [process_transaction_alert] does not raise: it answers with the
    fallback alert, which carries the transaction identifier, a score in
    [0,1] and the fixed narrative.  The fallback adds 0.3 for an amount
    above 1000 and 0.2 for a location that contains "unknown" in any case:
    a transaction with both is MEDIUM with REQUIRE_BASIC_VERIFICATION
    (score 0.5); one with an unknown location alone (score 0.2) or with
    neither (score 0.0) is LOW with MONITOR_ONLY. *)
Theorem fallback_rule (message : string) (transaction_data : TransactionData.t) :
  let alert :=
    process_transaction_alert fromisoformat call_bedrock_directly now
      (Some message) transaction_data in
  alert = _fallback_fraud_alert now transaction_data now /\
  FraudAlert.transaction_id alert = TransactionData.id transaction_data /\
  FraudAlert.agent_reasoning alert
    = "Fallback analysis used due to agent error" /\
  fle 0 (FraudAlert.risk_score alert) /\
  fle (FraudAlert.risk_score alert) 1 /\
  (FraudAlert.severity alert = "MEDIUM" /\
   FraudAlert.recommended_action alert = "REQUIRE_BASIC_VERIFICATION" \/
   FraudAlert.severity alert = "LOW" /\
   FraudAlert.recommended_action alert = "MONITOR_ONLY") /\
  (high_amount transaction_data = true ->
   unknown_location transaction_data = true ->
   FraudAlert.risk_score alert = 0.5%float /\
   FraudAlert.severity alert = "MEDIUM" /\
   FraudAlert.recommended_action alert = "REQUIRE_BASIC_VERIFICATION" /\
   FraudAlert.risk_factors alert =
     ["High amount transaction (fallback)"; "Unknown location (fallback)"]) /\
  (high_amount transaction_data = false ->
   unknown_location transaction_data = true ->
   FraudAlert.risk_score alert = 0.2%float /\
   FraudAlert.severity alert = "LOW" /\
   FraudAlert.recommended_action alert = "MONITOR_ONLY" /\
   FraudAlert.risk_factors alert = ["Unknown location (fallback)"]) /\
  (high_amount transaction_data = false ->
   unknown_location transaction_data = false ->
   FraudAlert.risk_score alert = 0%float /\
   FraudAlert.severity alert = "LOW" /\
   FraudAlert.recommended_action alert = "MONITOR_ONLY" /\
   FraudAlert.risk_factors alert = []).
Proof.
  intros alert. subst alert.
  unfold process_transaction_alert, _fallback_fraud_alert, high_amount,
    unknown_location.
  destruct (1000 <? TransactionData.amount transaction_data)%float;
    destruct (PyStr.contains "unknown" _);
    (split; [reflexivity |]); (split; [reflexivity |]);
    (split; [reflexivity |]); (split; [reflexivity |]);
    (split; [reflexivity |]);
    (split; [first [left; split; reflexivity | right; split; reflexivity] |]);
    repeat split; intros; first [discriminate | reflexivity].
Qed.

End Pipeline.

(** The scenario run with the fixed-width parser. *)
Lemma scenario_low_risk_witness :
  let alert :=
    process_transaction_alert IsoFormat.fromisoformat bedrock_down clock None
      scenario_2 in
  FraudAlert.risk_score alert = 0.2%float /\
  FraudAlert.severity alert = "LOW".
Proof.
  intros alert.
  assert (Hparse :
    IsoFormat.fromisoformat
      (PyStr.replace "Z"%char "+00:00" (TransactionData.timestamp scenario_2))
    = Some (mk_datetime 2024 1 15 14 0 0)) by (vm_compute; reflexivity).
  pose proof
    (scenario_low_risk IsoFormat.fromisoformat bedrock_down clock
       plain_float_str response_bedrock_down clock 0 scenario_2
       (mk_datetime 2024 1 15 14 0 0) eq_refl eq_refl eq_refl Hparse eq_refl)
    as H.
  split; [exact (proj1 H) | exact (proj1 (proj2 (proj2 H)))].
Defined.

(** The claim of C7 that the scenario scores 0.0 fails: the score is 0.2. *)
Lemma scenario_2_score_not_zero :
  let alert :=
    process_transaction_alert IsoFormat.fromisoformat bedrock_down clock None
      scenario_2 in
  TransactionData.amount scenario_2 = 50%float /\
  TransactionData.location scenario_2 = "New York, NY" /\
  TransactionData.device_id scenario_2 = "device_123" /\
  option_map hour
    (IsoFormat.fromisoformat (TransactionData.timestamp scenario_2)) = Some 14 /\
  FraudAlert.risk_score alert = 0.2%float /\
  FraudAlert.risk_score alert <> 0%float.
Proof.
  intros alert. repeat split; try (vm_compute; reflexivity).
  intros E. vm_compute in E. AnalyzerProps.float_discr E.
Qed.

(** The claim of C6 that an unknown location is enough for MEDIUM fails: a
    purchase of 50 at "Unknown" falls back to LOW with MONITOR_ONLY. *)
Lemma fallback_unknown_location_is_low :
  let alert :=
    process_transaction_alert IsoFormat.fromisoformat bedrock_down clock
      (Some "unexpected error") unknown_location_only in
  unknown_location unknown_location_only = true /\
  FraudAlert.risk_score alert = 0.2%float /\
  FraudAlert.severity alert = "LOW" /\
  FraudAlert.recommended_action alert = "MONITOR_ONLY" /\
  FraudAlert.severity alert <> "MEDIUM".
Proof.
  intros alert. repeat split; try (vm_compute; reflexivity).
  vm_compute. discriminate.
Qed.

(** A high amount alone: the fallback scores 0.3 and, testing [> 0.3],
    labels it LOW with MONITOR_ONLY, while the ladder of the classifier and
    of the response executor puts the same score 0.3 in the MEDIUM tier. *)
Lemma fallback_high_amount_alone :
  let alert :=
    process_transaction_alert IsoFormat.fromisoformat bedrock_down clock
      (Some "unexpected error") high_amount_only in
  high_amount high_amount_only = true /\
  unknown_location high_amount_only = false /\
  FraudAlert.risk_score alert = 0.3%float /\
  FraudAlert.severity alert = "LOW" /\
  FraudAlert.recommended_action alert = "MONITOR_ONLY" /\
  classify (FraudAlert.risk_score alert)
    = ("MEDIUM", "REQUIRE_BASIC_VERIFICATION").
Proof. intros alert. repeat split; vm_compute; reflexivity. Qed.

End PipelineProps.

(* ===================================================================== *)
(** * The request handlers                                                *)
(* ===================================================================== *)

Module BackendProps.
Import PyFloat FraudDetection Backend Samples.

Section Handlers.

Variable fromisoformat : string -> option datetime.
Variable fraud_bedrock : TransactionData.t -> float -> list string -> string.
Variable fraud_raised : option string.
Variable float_str : float -> string.
Variable response_bedrock : string -> AlertData.t -> string.
Variable response_raised : option string.
Variable elapsed_ms : Z.
Variable now : datetime.
Variable isoformat : datetime -> string.
Variable http_exception_str : Z -> string -> string.
Variable delivers : nat -> bool.

Local Abbreviation submit :=
  (analyze_transaction fromisoformat fraud_bedrock fraud_raised now isoformat
     http_exception_str).
Local Abbreviation trigger :=
  (respond_to_alert float_str response_bedrock response_raised elapsed_ms now
     isoformat http_exception_str delivers).

(** The name the ingestion handler passes to the queue is bound nowhere:
    not among its locals, not at module level. *)
Lemma transaction_data_unbound (locals : list (string * PyObj))
  (st : ApplicationState) :
  assoc "transaction_data" locals = None ->
  load_name locals "transaction_data" st
    = (Raises (NameError "transaction_data"), st).
Proof. intros H. unfold load_name. rewrite H. reflexivity. Qed.

(** What [analyze_transaction] does on every transaction and every state:
    it scores the transaction, counts it, stores the alert, and then fails
    on the unbound name [transaction_data]; the handler turns the
    [NameError] into a response of status 500.  The caller gets no
    summary and nothing reaches the transaction queue. *)
Theorem analyze_transaction_raises (transaction : TransactionData.t)
  (st : ApplicationState) :
  let alert :=
    process_transaction_alert fromisoformat fraud_bedrock now fraud_raised
      transaction in
  let st' :=
    set_active_alerts
      (<[FraudAlert.transaction_id alert := alert]> (active_alerts st))
      (set_fraud_detection
         (count_processed (isoformat now) (fraud_detection st)) st) in
  submit transaction st
    = (Raises (HTTPException 500 "name 'transaction_data' is not defined"),
       st') /\
  transaction_queue st' = transaction_queue st /\
  processed (fraud_detection st') = processed (fraud_detection st) + 1 /\
  active_alerts st' !! FraudAlert.transaction_id alert = Some alert.
Proof.
  intros alert st'. split; [reflexivity |]. split; [reflexivity |].
  split; [reflexivity |]. subst st'. cbn. apply lookup_insert_eq.
Qed.

(** What [respond_to_alert] does for an identifier that is not in the alert
    store: the 404 it raises is caught by its own handler, which counts an
    error for the threat response agent and raises a response of status
    500 in its place.  The store, the observers and the queues are left as
    they were; the error counter is not. *)
Theorem respond_to_alert_missing (alert_id : string) (st : ApplicationState) :
  active_alerts st !! alert_id = None ->
  let st' := set_threat_response (count_error (threat_response st)) st in
  trigger alert_id st
    = (Raises (HTTPException 500 (http_exception_str 404 "Alert not found")),
       st') /\
  errors (threat_response st') = errors (threat_response st) + 1 /\
  active_alerts st' = active_alerts st /\
  websocket_connections st' = websocket_connections st.
Proof.
  intros Hmissing st'.
  split; [| repeat split].
  unfold respond_to_alert, try_except, bind, get_state.
  rewrite Hmissing. reflexivity.
Qed.

End Handlers.

(** C4, on the code.  The ingestion handler is expected to return the
    alert summary and to enqueue the record.  For the transaction of the
    second end-to-end scenario, submitted to a freshly started
    application, the caller instead receives status 500 and the
    transaction queue stays empty, although the transaction was counted. *)
Example analyze_transaction_fresh :
  let result :=
    analyze_transaction IsoFormat.fromisoformat bedrock_down None clock
      clock_text status_and_detail scenario_2 app_state in
  fst result
    = Raises (HTTPException 500 "name 'transaction_data' is not defined") /\
  transaction_queue (snd result) = [] /\
  processed (fraud_detection (snd result)) = 1.
Proof. repeat split. Qed.

(** C5, on the code.  A response requested for an identifier absent from
    the alert store is expected to fail with a not-found error and to
    change no state.  For a transaction that was never submitted, on a
    freshly started application, the caller instead receives status 500,
    not 404, and the error counter of the threat response agent goes from
    0 to 1. *)
Example respond_to_alert_fresh :
  let result :=
    respond_to_alert plain_float_str response_bedrock_down None 0 clock
      clock_text status_and_detail always_delivers "txn_never_submitted"
      app_state in
  fst result = Raises (HTTPException 500 "404: Alert not found") /\
  errors (threat_response app_state) = 0 /\
  errors (threat_response (snd result)) = 1.
Proof. repeat split. Qed.

(** For contrast, the same request once the alert of the scenario is in
    the store: the handler returns, the response lists the single log
    action, and the processed counter of the threat response agent goes
    from 0 to 1 while its error counter stays at 0. *)
Example respond_to_alert_stored :
  let alert :=
    process_transaction_alert IsoFormat.fromisoformat bedrock_down clock None
      scenario_2 in
  let st :=
    set_active_alerts (<[FraudAlert.transaction_id alert := alert]> ∅)
      app_state in
  let result :=
    respond_to_alert plain_float_str response_bedrock_down None 0 clock
      clock_text status_and_detail always_delivers "txn_200002" st in
  (exists body,
     fst result = Returns body /\
     ThreatResponse.actions_taken (response_details body)
       = ["Logged low-risk security event"]) /\
  processed (threat_response (snd result)) = 1 /\
  errors (threat_response (snd result)) = 0.
Proof.
  intros alert st result. split; [| split; reflexivity].
  eexists. split; reflexivity.
Qed.

End BackendProps.

